(** * Mava: packaging script and MAD4PG system test

    A shallow embedding of the two source files of the repository:

    - [setup.py], the setuptools install script (module [Setup]);
    - [tests/systems/mad4pg_system_test.py], the integration test of the
      MAD4PG system (module [Mad4pgTest]).

    The install script is a function of the host it runs on (the metadata
    module on disk, [sys.argv], the clock, the package directories); the
    test functions are programs over the calls they make into Mava, Launchpad
    and Sonnet, whose answers are left to an arbitrary external world. *)

From Stdlib Require Import Ascii String.
From stdpp Require Import gmap strings list fin_maps.

Open Scope string_scope.
Open Scope list_scope.

(** * Python fragments shared by both files *)

(** The built-in exceptions the modelled code can raise. *)
Inductive exn :=
  | FileNotFoundError
  | AttributeError
  | ValueError
  | TypeError
  | ExternalError (msg : string).

(** [x in l] on a list. *)
Definition py_in (x : string) (l : list string) : bool :=
  bool_decide (x ∈ l).

(** [l.remove(x)]: drops the first item equal to [x]; [ValueError] when there
    is none. *)
Fixpoint py_list_remove (x : string) (l : list string) : exn + list string :=
  match l with
  | [] => inl ValueError
  | y :: l' =>
      if decide (y = x) then inr l'
      else match py_list_remove x l' with
           | inl e => inl e
           | inr r => inr (y :: r)
           end
  end.

(** A dict display [{k1: v1, ..., kn: vn}]: items are stored left to right,
    a later item replacing an earlier one with the same key. *)
Definition dict_display {V} (items : list (string * V)) : gmap string V :=
  foldl (λ m kv, <[kv.1 := kv.2]> m) ∅ items.

(** * The install script *)
Module Setup.

(** ** [datetime] and [strftime] *)

(** The calendar fields of a [datetime.datetime]. *)
Record datetime := { year : N; month : N; day : N }.

Definition digit (n : N) : ascii := ascii_of_N (48 + n `mod` 10).

Fixpoint decimal_go (fuel : nat) (n : N) (acc : string) : string :=
  match fuel with
  | 0%nat => acc
  | S fuel' =>
      let acc' := String (digit n) acc in
      if (n `div` 10 =? 0)%N then acc'
      else decimal_go fuel' (n `div` 10)%N acc'
  end.

(** [str(n)] for a natural number; a number has no more decimal digits
    than binary ones. *)
Definition decimal (n : N) : string := decimal_go (S (N.size_nat n)) n "".

Fixpoint zeros (k : nat) : string :=
  match k with 0%nat => "" | S k' => String "0" (zeros k') end.

(** Left padding with zeros up to [width] characters, as [%02d]/[%04d]. *)
Definition zfill (width : nat) (s : string) : string :=
  zeros (width - String.length s) +:+ s.

(** The conversion of one directive.  [%Y] is the year with century,
    [%m] and [%d] the zero-padded month and day; the script uses no other
    directive, and any other character is kept behind its percent sign. *)
Definition directive (c : ascii) (d : datetime) : string :=
  if decide (c = "Y"%char) then zfill 4 (decimal (year d))
  else if decide (c = "m"%char) then zfill 2 (decimal (month d))
  else if decide (c = "d"%char) then zfill 2 (decimal (day d))
  else String "%" (String c "").

(** [d.strftime(fmt)]. *)
Fixpoint strftime (fmt : string) (d : datetime) : string :=
  match fmt with
  | "" => ""
  | String c rest =>
      if decide (c = "%"%char) then
        match rest with
        | String c' rest' => directive c' d +:+ strftime rest' d
        | "" => String c ""
        end
      else String c (strftime rest d)
  end.

(** ** The host *)

(** What the script reads from its surroundings. *)
Record Host := {
  (** the namespace of [mava/_metadata.py] once executed; [None] when
      loading or executing the file raises.  The attributes the script
      reads are taken to be strings, as a version is. *)
  metadata_module : option (gmap string string);
  (** the exception that loading or executing the file raises when it
      does: a missing file, a syntax error, whatever the module body
      raises *)
  load_error : exn;
  (** [sys.argv] when the script starts *)
  sys_argv : list string;
  (** [datetime.datetime.now()] *)
  now : datetime;
  (** [find_packages()] *)
  find_packages : list string;
}.

Definition with_argv (argv : list string) (h : Host) : Host :=
  {| metadata_module := metadata_module h;
     load_error := load_error h;
     sys_argv := argv;
     now := now h;
     find_packages := find_packages h |}.

(** ** Module-level constants *)

Definition reverb_requirements : list string :=
  ["dm-reverb~=0.6.1"].

Definition tf_requirements : list string :=
  ["tensorflow~=2.7.0";
   "tensorflow_probability~=0.15.0";
   "dm-sonnet";
   "trfl"].

Definition jax_requirements : list string :=
  (["chex";
   "jax";
   "jaxlib";
   "dm-haiku";
   "flax";
   "optax";
   "rlax"] ++ tf_requirements)%list.

Definition pettingzoo_requirements : list string :=
  ["pettingzoo~=1.17.0";
   "multi_agent_ale_py";
   "supersuit==3.3.4";
   "pygame";
   "pysc2"].

Definition launchpad_requirements : list string := ["dm-launchpad~=0.3.2"].

Definition smac_requirements : list string :=
  ["pysc2"; "SMAC @ git+https://github.com/oxwhirl/smac.git"].

Definition testing_formatting_requirements : list string :=
  ["pytest==6.2.4";
   "pre-commit";
   "mypy==0.941";
   "pytest-xdist";
   "flake8==3.8.2";
   "black==22.3.0";
   "pytest-cov";
   "interrogate";
   "pydocstyle";
   "types-six"].

Definition record_episode_requirements : list string := ["array2gif"].

Definition flatland_requirements : list string := ["flatland-rl==3.0.1"].
Definition open_spiel_requirements : list string := ["open_spiel"].

Definition long_description : string :=
"Mava is a library for building multi-agent reinforcement
learning (MARL) systems. Mava builds off of Acme and in a similar way strives
to expose simple, efficient, and readable components, as well as examples that
serve both as reference implementations of popular algorithms and as strong
baselines, while still providing enough flexibility to do novel research.
For more information see
[github repository](https://github.com/instadeepai/mava).".

(** ** The call to [setup] *)

(** The keyword arguments [setup] is called with. *)
Record SetupArgs := {
  name : string;
  version : string;
  description : string;
  long_description_arg : string;
  long_description_content_type : string;
  author : string;
  license : string;
  keywords : string;
  packages : list string;
  install_requires : list string;
  extras_require : gmap string (list string);
  classifiers : list string;
}.

(** What one run of the script amounts to: the arguments of the [setup]
    call and the contents of [sys.argv] at that call. *)
Record Run := { setup_args : SetupArgs; argv_at_setup : list string }.

(** Lines 24-26 and 87: load the metadata module and read its
    [__version__].  A failure of the loading ends the script with the
    exception it raises; a module without the attribute, with
    [AttributeError]. *)
Definition load_version (h : Host) : exn + string :=
  match metadata_module h with
  | None => inl (load_error h)
  | Some _metadata =>
      match _metadata !! "__version__" with
      | None => inl AttributeError
      | Some v => inr v
      end
  end.

(** Lines 90-92: the nightly switch.  Takes and returns the pair of
    [sys.argv] and [version]. *)
Definition nightly (h : Host) (argv : list string) (version : string)
  : exn + (list string * string) :=
  if py_in "--nightly" argv then
    match py_list_remove "--nightly" argv with
    | inl e => inl e
    | inr argv' =>
        inr (argv', version +:+ (".dev" +:+ strftime "%Y%m%d" (now h)))
    end
  else inr (argv, version).

(** Lines 94-142. *)
Definition setup_call (h : Host) (version : string) : SetupArgs :=
  {| name := "id-mava";
     version := version;
     description := "A Python library for Multi-Agent Reinforcement Learning.";
     long_description_arg := long_description;
     long_description_content_type := "text/markdown";
     author := "InstaDeep Ltd";
     license := "Apache License, Version 2.0";
     keywords := "multi-agent reinforcement-learning python machine learning";
     packages := find_packages h;
     install_requires :=
       ["dm-acme~=0.2.4";
        "chex";
        "absl-py";
        "dm_env";
        "dm-tree";
        "numpy~=1.21.4";
        "pillow";
        "matplotlib";
        "dataclasses";
        "box2d-py";
        "gym<=0.23.0"];
     extras_require :=
       dict_display
         [("tf", tf_requirements);
          ("pz", pettingzoo_requirements);
          ("flatland", flatland_requirements);
          ("open_spiel", open_spiel_requirements);
          ("reverb", reverb_requirements);
          ("launchpad", launchpad_requirements);
          ("testing_formatting", testing_formatting_requirements);
          ("record_episode", record_episode_requirements);
          ("sc2", smac_requirements);
          ("envs", (pettingzoo_requirements ++ open_spiel_requirements
                      ++ smac_requirements)%list);
          ("jax", jax_requirements)];
     classifiers :=
       ["Development Status :: 3 - Alpha";
        "Environment :: Console";
        "Intended Audience :: Science/Research";
        "License :: OSI Approved :: Apache Software License";
        "Operating System :: POSIX :: Linux";
        "Programming Language :: Python :: 3";
        "Programming Language :: Python :: 3.7";
        "Programming Language :: Python :: 3.8";
        "Programming Language :: Python :: 3.9";
        "Topic :: Scientific/Engineering :: Artificial Intelligence"] |}.

(** The whole script. *)
Definition setup_py (h : Host) : exn + Run :=
  match load_version h with
  | inl e => inl e
  | inr version =>
      match nightly h (sys_argv h) version with
      | inl e => inl e
      | inr (argv, version) =>
          inr {| setup_args := setup_call h version;
                 argv_at_setup := argv |}
      end
  end.

End Setup.

(** ** Vocabulary of the statements about the install script *)

Import Setup.

(** The arguments a run configures the package with, whatever is left in
    [sys.argv]. *)
Definition configured (h : Host) : exn + SetupArgs :=
  match setup_py h with
  | inl e => inl e
  | inr r => inr (setup_args r)
  end.

(** The version string a run configures, if it reaches [setup]. *)
Definition configured_version (h : Host) : option string :=
  match configured h with
  | inl _ => None
  | inr args => Some (version args)
  end.

(** The date written with four digits of year, two of month and two of day. *)
Definition yyyymmdd (d : datetime) : string :=
  String (digit (year d `div` 1000)%N)
    (String (digit (year d `div` 100)%N)
      (String (digit (year d `div` 10)%N)
        (String (digit (year d))
          (String (digit (month d `div` 10)%N)
            (String (digit (month d))
              (String (digit (day d `div` 10)%N)
                (String (digit (day d)) ""))))))).

(** The dates the clock can show: a four-digit year (where the documented
    [%Y] and the C library's agree), a month and a day of the month. *)
Definition valid_now (d : datetime) : Prop :=
  (1000 ≤ year d ≤ 9999 ∧ 1 ≤ month d ≤ 12 ∧ 1 ≤ day d ≤ 31)%N.

(** Fixed-width decimal numerals. *)
Definition fixed4 (n : N) : string :=
  String (digit (n `div` 1000)%N) (String (digit (n `div` 100)%N)
    (String (digit (n `div` 10)%N) (String (digit n) ""))).

Definition fixed2 (n : N) : string :=
  String (digit (n `div` 10)%N) (String (digit n) "").

(** The [count] numbers from [start] on. *)
Fixpoint upto (count : nat) (start : N) : list N :=
  match count with
  | 0%nat => []
  | S count' => start :: upto count' (N.succ start)
  end.

(** How many items of [l] equal [x]: [l.count(x)]. *)
Definition occurrences (x : string) (l : list string) : nat :=
  length (filter (λ y, y = x) l).

(** The keys of the [extras_require] display, as written. *)
Definition extras_keys : list string :=
  ["tf"; "pz"; "flatland"; "open_spiel"; "reverb"; "launchpad";
   "testing_formatting"; "record_episode"; "sc2"; "envs"; "jax"].

(** [int(s)] for a string of decimal digits. *)
Definition int (s : string) : N :=
  foldl (λ acc c, 10 * acc + (N_of_ascii c - 48))%N 0%N (list_ascii_of_string s).

(** The host with another clock. *)
Definition with_now (d : datetime) (h : Host) : Host :=
  {| metadata_module := metadata_module h;
     load_error := load_error h;
     sys_argv := sys_argv h;
     now := d;
     find_packages := find_packages h |}.

(** A host used as running example. *)
Definition host_example : Host :=
  {| metadata_module := Some {[ "__version__" := "0.1.3" ]};
     load_error := FileNotFoundError;
     sys_argv := ["setup.py"; "--nightly"; "sdist"; "--nightly"];
     now := {| year := 2022; month := 4; day := 9 |};
     find_packages := ["mava"] |}.

(** * The MAD4PG system test *)
Module Mad4pgTest.

(** ** Values *)

(** The Python values the test functions handle.  [VName] is a name the
    module imports ([lp.launch], [mad4pg.MAD4PG], ...); [VObj] an object
    made by one of the libraries, known only by its identity; [VList]
    stands for a list and for any other iterable a library hands back,
    seen through the items it yields; [VFloat m e] is the literal
    [m * 10^e]. *)
#[local] Unset Elimination Schemes.
Inductive value :=
  | VNone
  | VBool (b : bool)
  | VInt (n : Z)
  | VFloat (mantissa exponent : Z)
  | VStr (s : string)
  | VTuple (items : list value)
  | VList (items : list value)
  | VName (qualname : string)
  | VPartial (func : value) (keywords : list (string * value))
  | VObj (id : nat).
#[local] Set Elimination Schemes.

Definition kwargs := list (string * value).

(** ** Calls into the libraries *)

(** What the test asks of code outside the file. *)
Inductive call :=
  | Call (callee : value) (args : list value) (kw : kwargs)
  | Method (obj : value) (name : string) (args : list value) (kw : kwargs)
  | GetAttr (obj : value) (name : string)
  | GetItem (obj : value) (key : value).

Inductive outcome :=
  | Returns (v : value)
  | Raises (e : exn).

(** ** Programs *)

(** A test body: it finishes with a result, raises, or makes a call and
    goes on with what the call returns, so that a call is over before
    the next statement starts. *)
Inductive prog (A : Type) :=
  | Ret (a : A)
  | Throw (e : exn)
  | Do (c : call) (k : value → prog A).
Arguments Ret {A} a.
Arguments Throw {A} e.
Arguments Do {A} c k.

Fixpoint bind {A B} (p : prog A) (f : A → prog B) : prog B :=
  match p with
  | Ret a => f a
  | Throw e => Throw e
  | Do c k => Do c (λ v, bind (k v) f)
  end.

Notation "'let*' x ':=' c 'in' k" := (bind c (λ x, k))
  (at level 100, x name, c at next level, right associativity, only parsing).
Notation "c ';;' k" := (bind c (λ _, k))
  (at level 100, right associativity, only parsing).

(** A call of a function, a call of a method, an attribute reference
    [obj.name] and a subscription [obj[key]]. *)
Definition call_ (f : value) (args : list value) (kw : kwargs) : prog value :=
  Do (Call f args kw) Ret.
Definition method (obj : value) (name : string) (args : list value)
  (kw : kwargs) : prog value :=
  Do (Method obj name args kw) Ret.
Definition getattr (obj : value) (name : string) : prog value :=
  Do (GetAttr obj name) Ret.
Definition getitem (obj key : value) : prog value :=
  Do (GetItem obj key) Ret.

(** [functools.partial] with keywords only: a partial object that remembers
    the function and the keywords. *)
Definition functools_partial (func : value) (keywords : kwargs) : value :=
  VPartial func keywords.

(** The items iterating over a value yields; [None] for a value that is
    not iterable. *)
Definition py_items (v : value) : option (list value) :=
  match v with
  | VTuple items | VList items => Some items
  | VStr s => Some ((λ c, VStr (String c "")) <$> list_ascii_of_string s)
  | _ => None
  end.

(** The target list [(x,) = v]: [TypeError] when [v] is not iterable,
    [ValueError] unless it yields exactly one item. *)
Definition unpack1 (v : value) : prog value :=
  match py_items v with
  | None => Throw TypeError
  | Some [x] => Ret x
  | Some _ => Throw ValueError
  end.

(** [range(n)] and [for i in l: body]. *)
Definition range (n : nat) : list nat := seq 0 n.

Fixpoint for_each (l : list nat) (body : nat → prog unit) : prog unit :=
  match l with
  | [] => Ret ()
  | i :: l' => body i;; for_each l' body
  end.

(** ** The four tests *)

(** Test feedforward mad4pg. *)
Definition test_mad4pg_on_debugging_env : prog unit :=
  (* environment *)
  let environment_factory :=
    functools_partial (VName "debugging_utils.make_environment")
      [("env_name", VStr "simple_spread");
       ("action_space", VStr "continuous")] in
  (* networks *)
  let* network_factory :=
    call_ (VName "lp_utils.partial_kwargs")
      [VName "mad4pg.make_default_networks"]
      [("policy_networks_layer_sizes", VTuple [VInt 64; VInt 64]);
       ("vmin", VInt (-10));
       ("vmax", VInt 50)] in
  (* system *)
  let* policy_optimizer :=
    call_ (VName "snt.optimizers.Adam") [] [("learning_rate", VFloat 1 (-4))] in
  let* critic_optimizer :=
    call_ (VName "snt.optimizers.Adam") [] [("learning_rate", VFloat 1 (-4))] in
  let* system :=
    call_ (VName "mad4pg.MAD4PG") []
      [("environment_factory", environment_factory);
       ("network_factory", network_factory);
       ("num_executors", VInt 1);
       ("batch_size", VInt 32);
       ("min_replay_size", VInt 32);
       ("max_replay_size", VInt 1000);
       ("policy_optimizer", policy_optimizer);
       ("critic_optimizer", critic_optimizer);
       ("checkpoint", VBool false)] in
  let* program := method system "build" [] [] in
  let* groups := getattr program "groups" in
  let* trainer_nodes := getitem groups (VStr "trainer") in
  let* trainer_node := unpack1 trainer_nodes in
  method trainer_node "disable_run" [] [];;
  (* Launch gpu config - don't use gpu *)
  let* groups := getattr program "groups" in
  let* program_nodes := method groups "keys" [] [] in
  let* local_resources :=
    call_ (VName "lp_utils.to_device") []
      [("program_nodes", program_nodes); ("nodes_on_gpu", VList [])] in
  call_ (VName "lp.launch") [program]
    [("launch_type", VStr "test_mt");
     ("local_resources", local_resources)];;
  let* handle := method trainer_node "create_handle" [] [] in
  let* trainer := method handle "dereference" [] [] in
  for_each (range 2) (λ _, method trainer "step" [] [];; Ret ()).

(** Test recurrent mad4pg. *)
Definition test_recurrent_mad4pg_on_debugging_env : prog unit :=
  (* environment *)
  let environment_factory :=
    functools_partial (VName "debugging_utils.make_environment")
      [("env_name", VStr "simple_spread");
       ("action_space", VStr "continuous")] in
  (* networks *)
  let* network_factory :=
    call_ (VName "lp_utils.partial_kwargs")
      [VName "mad4pg.make_default_networks"]
      [("architecture_type", VName "ArchitectureType.recurrent");
       ("policy_networks_layer_sizes", VTuple [VInt 32; VInt 32]);
       ("vmin", VInt (-10));
       ("vmax", VInt 50)] in
  (* system *)
  let* policy_optimizer :=
    call_ (VName "snt.optimizers.Adam") [] [("learning_rate", VFloat 1 (-4))] in
  let* critic_optimizer :=
    call_ (VName "snt.optimizers.Adam") [] [("learning_rate", VFloat 1 (-4))] in
  let* system :=
    call_ (VName "mad4pg.MAD4PG") []
      [("environment_factory", environment_factory);
       ("network_factory", network_factory);
       ("num_executors", VInt 1);
       ("batch_size", VInt 16);
       ("min_replay_size", VInt 16);
       ("max_replay_size", VInt 1000);
       ("policy_optimizer", policy_optimizer);
       ("critic_optimizer", critic_optimizer);
       ("checkpoint", VBool false);
       ("trainer_fn",
         VName "mad4pg.training.MAD4PGDecentralisedRecurrentTrainer");
       ("executor_fn", VName "mad4pg.execution.MAD4PGRecurrentExecutor");
       ("sequence_length", VInt 4);
       ("period", VInt 4);
       ("bootstrap_n", VInt 2)] in
  let* program := method system "build" [] [] in
  let* groups := getattr program "groups" in
  let* trainer_nodes := getitem groups (VStr "trainer") in
  let* trainer_node := unpack1 trainer_nodes in
  method trainer_node "disable_run" [] [];;
  (* Launch gpu config - don't use gpu *)
  let* groups := getattr program "groups" in
  let* program_nodes := method groups "keys" [] [] in
  let* local_resources :=
    call_ (VName "lp_utils.to_device") []
      [("program_nodes", program_nodes); ("nodes_on_gpu", VList [])] in
  call_ (VName "lp.launch") [program]
    [("launch_type", VStr "test_mt");
     ("local_resources", local_resources)];;
  let* handle := method trainer_node "create_handle" [] [] in
  let* trainer := method handle "dereference" [] [] in
  for_each (range 2) (λ _, method trainer "step" [] [];; Ret ()).

(** Test centralised mad4pg. *)
Definition test_centralised_mad4pg_on_debugging_env : prog unit :=
  (* environment *)
  let environment_factory :=
    functools_partial (VName "debugging_utils.make_environment")
      [("env_name", VStr "simple_spread");
       ("action_space", VStr "continuous")] in
  (* networks *)
  let* network_factory :=
    call_ (VName "lp_utils.partial_kwargs")
      [VName "mad4pg.make_default_networks"]
      [("policy_networks_layer_sizes", VTuple [VInt 32; VInt 32]);
       ("vmin", VInt (-10));
       ("vmax", VInt 50)] in
  (* system *)
  let* policy_optimizer :=
    call_ (VName "snt.optimizers.Adam") [] [("learning_rate", VFloat 1 (-4))] in
  let* critic_optimizer :=
    call_ (VName "snt.optimizers.Adam") [] [("learning_rate", VFloat 1 (-4))] in
  let* system :=
    call_ (VName "mad4pg.MAD4PG") []
      [("environment_factory", environment_factory);
       ("network_factory", network_factory);
       ("num_executors", VInt 1);
       ("batch_size", VInt 16);
       ("min_replay_size", VInt 16);
       ("max_replay_size", VInt 1000);
       ("policy_optimizer", policy_optimizer);
       ("critic_optimizer", critic_optimizer);
       ("checkpoint", VBool false);
       ("architecture", VName "architectures.CentralisedQValueCritic");
       ("trainer_fn", VName "mad4pg.MAD4PGCentralisedTrainer");
       ("shared_weights", VBool false)] in
  let* program := method system "build" [] [] in
  let* groups := getattr program "groups" in
  let* trainer_nodes := getitem groups (VStr "trainer") in
  let* trainer_node := unpack1 trainer_nodes in
  method trainer_node "disable_run" [] [];;
  (* Launch gpu config - don't use gpu *)
  let* groups := getattr program "groups" in
  let* program_nodes := method groups "keys" [] [] in
  let* local_resources :=
    call_ (VName "lp_utils.to_device") []
      [("program_nodes", program_nodes); ("nodes_on_gpu", VList [])] in
  call_ (VName "lp.launch") [program]
    [("launch_type", VStr "test_mt");
     ("local_resources", local_resources)];;
  let* handle := method trainer_node "create_handle" [] [] in
  let* trainer := method handle "dereference" [] [] in
  for_each (range 2) (λ _, method trainer "step" [] [];; Ret ()).

(** Test state based mad4pg. *)
Definition test_state_based_mad4pg_on_debugging_env : prog unit :=
  (* environment *)
  let environment_factory :=
    functools_partial (VName "debugging_utils.make_environment")
      [("env_name", VStr "simple_spread");
       ("action_space", VStr "continuous");
       ("return_state_info", VBool true)] in
  (* networks *)
  let* network_factory :=
    call_ (VName "lp_utils.partial_kwargs")
      [VName "mad4pg.make_default_networks"]
      [("policy_networks_layer_sizes", VTuple [VInt 32; VInt 32]);
       ("vmin", VInt (-10));
       ("vmax", VInt 50)] in
  (* system *)
  let* policy_optimizer :=
    call_ (VName "snt.optimizers.Adam") [] [("learning_rate", VFloat 1 (-4))] in
  let* critic_optimizer :=
    call_ (VName "snt.optimizers.Adam") [] [("learning_rate", VFloat 1 (-4))] in
  let* system :=
    call_ (VName "mad4pg.MAD4PG") []
      [("environment_factory", environment_factory);
       ("network_factory", network_factory);
       ("num_executors", VInt 1);
       ("batch_size", VInt 16);
       ("min_replay_size", VInt 16);
       ("max_replay_size", VInt 1000);
       ("policy_optimizer", policy_optimizer);
       ("critic_optimizer", critic_optimizer);
       ("checkpoint", VBool false);
       ("trainer_fn", VName "mad4pg.MAD4PGStateBasedTrainer");
       ("architecture", VName "architectures.StateBasedQValueCritic");
       ("shared_weights", VBool false)] in
  let* program := method system "build" [] [] in
  let* groups := getattr program "groups" in
  let* trainer_nodes := getitem groups (VStr "trainer") in
  let* trainer_node := unpack1 trainer_nodes in
  method trainer_node "disable_run" [] [];;
  (* Launch gpu config - don't use gpu *)
  let* groups := getattr program "groups" in
  let* program_nodes := method groups "keys" [] [] in
  let* local_resources :=
    call_ (VName "lp_utils.to_device") []
      [("program_nodes", program_nodes); ("nodes_on_gpu", VList [])] in
  call_ (VName "lp.launch") [program]
    [("launch_type", VStr "test_mt");
     ("local_resources", local_resources)];;
  let* handle := method trainer_node "create_handle" [] [] in
  let* trainer := method handle "dereference" [] [] in
  for_each (range 2) (λ _, method trainer "step" [] [];; Ret ()).

(** The four variants of the class [TestMAD4PG]. *)
Inductive variant := Feedforward | Recurrent | Centralised | StateBased.

Definition test (v : variant) : prog unit :=
  match v with
  | Feedforward => test_mad4pg_on_debugging_env
  | Recurrent => test_recurrent_mad4pg_on_debugging_env
  | Centralised => test_centralised_mad4pg_on_debugging_env
  | StateBased => test_state_based_mad4pg_on_debugging_env
  end.

(** ** Running a test against the libraries *)

(** One line of the record of a run: a call starts, a call returns, a call
    raises. *)
Inductive entry :=
  | Invoke (c : call)
  | Return (v : value)
  | Raise (e : exn).

Section Run.

(** The libraries: a state of their own and, for each call in each state,
    an outcome and the state after it. *)
Context {World : Type} (ext : call → World → outcome * World).

(** [exec p w past] runs [p] from world [w]; [past] is the record so far,
    latest entry first.  The result is the whole record in order and how
    the program ended. *)
Fixpoint exec {A} (p : prog A) (w : World) (past : list entry)
  : list entry * (exn + A) :=
  match p with
  | Ret a => (rev past, inr a)
  | Throw e => (rev past, inl e)
  | Do c k =>
      match ext c w with
      | (Returns v, w') => exec (k v) w' (Return v :: Invoke c :: past)
      | (Raises e, w') => (rev (Raise e :: Invoke c :: past), inl e)
      end
  end.

Definition run {A} (p : prog A) (w : World) : list entry * (exn + A) :=
  exec p w [].

End Run.

(** ** Reading the record of a run *)


Definition is_call (f : string) (c : call) : bool :=
  match c with
  | Call (VName g) _ _ => String.eqb g f
  | _ => false
  end.


(** The calls started during a run, in order. *)
Fixpoint invocations (tr : list entry) : list call :=
  match tr with
  | [] => []
  | Invoke c :: tr' => c :: invocations tr'
  | _ :: tr' => invocations tr'
  end.


(** What follows the start of the first call satisfying [p]; [None] when
    no such call starts. *)
Fixpoint after (p : call → bool) (tr : list entry) : option (list entry) :=
  match tr with
  | [] => None
  | Invoke c :: tr' => if p c then Some tr' else after p tr'
  | _ :: tr' => after p tr'
  end.

(** What precedes the start of the first call satisfying [p]; the
    whole record when no such call starts. *)
Fixpoint before (p : call → bool) (tr : list entry) : list entry :=
  match tr with
  | [] => []
  | Invoke c :: tr' => if p c then [] else Invoke c :: before p tr'
  | e :: tr' => e :: before p tr'
  end.

(** The program is launched during the run. *)
Definition launched (tr : list entry) : bool :=
  existsb (is_call "lp.launch") (invocations tr).



(** ** All the runs of a program *)

(** [wp p past Q]: whatever the libraries answer, a run of [p] that
    continues the record [past] (latest entry first) ends with a record and
    a result that satisfy [Q]. *)
Fixpoint wp {A} (p : prog A) (past : list entry)
  (Q : list entry → exn + A → Prop) : Prop :=
  match p with
  | Ret a => Q (rev past) (inr a)
  | Throw e => Q (rev past) (inl e)
  | Do c k =>
      (∀ e, Q (rev (Raise e :: Invoke c :: past)) (inl e)) ∧
      (∀ v, wp (k v) (Return v :: Invoke c :: past) Q)
  end.

(** ** A world to run the tests in *)

(** Libraries in which every call succeeds: each returns a fresh object,
    except that a subscript returns a list holding one fresh object. *)
Definition fresh_world (c : call) (n : nat) : outcome * nat :=
  match c with
  | GetItem _ _ => (Returns (VList [VObj n]), S n)
  | _ => (Returns (VObj n), S n)
  end.

(** ** More ways to read the record of a run *)

(** The operation a call performs, without its operands. *)
Definition operation (c : call) : string :=
  match c with
  | Call (VName f) _ _ => f +:+ "()"
  | Call _ _ _ => "()"
  | Method _ m _ _ => "." +:+ m +:+ "()"
  | GetAttr _ a => "." +:+ a
  | GetItem _ (VStr k) => "[" +:+ k +:+ "]"
  | GetItem _ _ => "[]"
  end.

(** The operations of a test body, in the order of the source. *)
Definition script : list string :=
  ["lp_utils.partial_kwargs()";
   "snt.optimizers.Adam()";
   "snt.optimizers.Adam()";
   "mad4pg.MAD4PG()";
   ".build()";
   ".groups";
   "[trainer]";
   ".disable_run()";
   ".groups";
   ".keys()";
   "lp_utils.to_device()";
   "lp.launch()";
   ".create_handle()";
   ".dereference()";
   ".step()";
   ".step()"].

Definition is_subscript (c : call) : bool :=
  match c with
  | GetItem _ _ => true
  | _ => false
  end.

(** The exceptions the libraries raised during a run, in order. *)
Fixpoint raised (tr : list entry) : list exn :=
  match tr with
  | [] => []
  | Raise e :: tr' => e :: raised tr'
  | _ :: tr' => raised tr'
  end.

(** Libraries in which every call succeeds but the trainer group holds two
    nodes. *)
Definition two_nodes_world (c : call) (n : nat) : outcome * nat :=
  match c with
  | GetItem _ _ => (Returns (VList [VObj n; VObj (S n)]), S (S n))
  | _ => (Returns (VObj n), S n)
  end.

End Mad4pgTest.

(** * Facts about the install script *)

Section ListFacts.

Lemma py_in_true x l : py_in x l = true ↔ x ∈ l.
Proof. unfold py_in. apply bool_decide_eq_true. Qed.

Lemma py_in_false x l : py_in x l = false ↔ x ∉ l.
Proof. unfold py_in. apply bool_decide_eq_false. Qed.

Lemma py_list_remove_absent x l :
  x ∉ l → py_list_remove x l = inl ValueError.
Proof.
  induction l as [|y l IH]; intros Hx; simpl; [done|].
  apply not_elem_of_cons in Hx as [Hne Hl].
  destruct (decide (y = x)) as [->|_]; [done|].
  by rewrite IH.
Qed.

Lemma py_list_remove_first x l :
  x ∈ l →
  ∃ l1 l2,
    l = l1 ++ (x :: l2) ∧ (x ∉ l1) ∧ py_list_remove x l = inr (l1 ++ l2).
Proof.
  induction l as [|y l IH]; intros Hx; [by apply elem_of_nil in Hx|].
  simpl. destruct (decide (y = x)) as [->|Hne].
  - exists [], l. split_and!; [done| |done]. apply not_elem_of_nil.
  - apply elem_of_cons in Hx as [->|Hx]; [done|].
    destruct (IH Hx) as (l1 & l2 & -> & Hl1 & ->).
    exists (y :: l1), l2. split_and!; [done| |done].
    apply not_elem_of_cons. split; [congruence|done].
Qed.

End ListFacts.

Section DateFacts.

Lemma elem_of_upto (count : nat) (start n : N) :
  (start ≤ n < start + N.of_nat count)%N → In n (upto count start).
Proof.
  revert start. induction count as [|count IH]; intros start Hn; [lia|].
  cbn [upto]. destruct (decide (n = start)) as [->|Hne]; [by left|].
  right. apply IH. lia.
Qed.

(** A property checked on every number below [k] holds below [k]. *)
Lemma below_forallb (P : N → bool) (k : nat) :
  forallb P (upto k 0) = true → ∀ n, (n < N.of_nat k)%N → P n = true.
Proof.
  intros H n Hn. rewrite forallb_forall in H.
  apply H, elem_of_upto. lia.
Qed.

Lemma zfill4_decimal n : (n < 10000)%N → zfill 4 (decimal n) = fixed4 n.
Proof.
  intros Hn. apply String.eqb_eq.
  apply (below_forallb (λ k, String.eqb (zfill 4 (decimal k)) (fixed4 k))
           (N.to_nat 10000)); [|by rewrite N2Nat.id].
  vm_compute. reflexivity.
Qed.

Lemma zfill2_decimal n : (n < 100)%N → zfill 2 (decimal n) = fixed2 n.
Proof.
  intros Hn. apply String.eqb_eq.
  apply (below_forallb (λ k, String.eqb (zfill 2 (decimal k)) (fixed2 k))
           (N.to_nat 100)); [|by rewrite N2Nat.id].
  vm_compute. reflexivity.
Qed.

Lemma append_empty_r (s : string) : s +:+ "" = s.
Proof.
  induction s as [|c s IH]; [done|].
  change (String c (s +:+ "") = String c s). by rewrite IH.
Qed.

Lemma strftime_Ymd d :
  strftime "%Y%m%d" d
  = zfill 4 (decimal (year d)) +:+ zfill 2 (decimal (month d))
      +:+ zfill 2 (decimal (day d)).
Proof.
  cbn [strftime]. repeat (case_decide; [|done]).
  unfold directive. repeat case_decide; try done.
  by rewrite append_empty_r.
Qed.

Lemma strftime_yyyymmdd d : valid_now d → strftime "%Y%m%d" d = yyyymmdd d.
Proof.
  intros (Hy & Hm & Hd). rewrite strftime_Ymd.
  rewrite zfill4_decimal, !zfill2_decimal by lia. reflexivity.
Qed.

End DateFacts.

Section ScriptFacts.

Lemma nightly_present h argv v :
  "--nightly" ∈ argv →
  ∃ l1 l2, argv = l1 ++ ("--nightly" :: l2) ∧ ("--nightly" ∉ l1) ∧
    nightly h argv v
    = inr (l1 ++ l2, v +:+ ".dev" +:+ strftime "%Y%m%d" (now h)).
Proof.
  intros Hin. unfold nightly.
  destruct (py_list_remove_first _ _ Hin) as (l1 & l2 & Heq & Hl1 & Hrm).
  exists l1, l2. split_and!; [done..|].
  apply py_in_true in Hin. by rewrite Hin, Hrm.
Qed.

Lemma nightly_absent h argv v :
  "--nightly" ∉ argv → nightly h argv v = inr (argv, v).
Proof. intros Hin. unfold nightly. apply py_in_false in Hin. by rewrite Hin. Qed.

Lemma setup_py_ok h r :
  setup_py h = inr r →
  ∃ ns v argv v',
    metadata_module h = Some ns ∧ ns !! "__version__" = Some v ∧
    nightly h (sys_argv h) v = inr (argv, v') ∧
    r = {| setup_args := setup_call h v'; argv_at_setup := argv |}.
Proof.
  unfold setup_py, load_version. intros H.
  destruct (metadata_module h) as [ns|]; [|done].
  destruct (ns !! "__version__") as [v|] eqn:Hv; [|done].
  destruct (nightly h (sys_argv h) v) as [e|[argv v']] eqn:Hn; [done|].
  exists ns, v, argv, v'. split_and!; congruence.
Qed.

End ScriptFacts.

(** ** The version string *)

(** C2: when the metadata module loads and defines [__version__], the script
    reaches [setup] and passes as version that attribute, followed by
    [.dev] and the date of the clock as YYYYMMDD exactly when [--nightly] is
    among [sys.argv], and the attribute as it is otherwise. *)
Theorem version_from_metadata (h : Host) (ns : gmap string string) (v : string) :
  metadata_module h = Some ns →
  ns !! "__version__" = Some v →
  valid_now (now h) →
  ∃ r, setup_py h = inr r ∧
       version (setup_args r)
       = if bool_decide ("--nightly" ∈ sys_argv h)
         then v +:+ ".dev" +:+ yyyymmdd (now h)
         else v.
Proof.
  intros Hm Hv Hnow. unfold setup_py, load_version. rewrite Hm, Hv.
  case_bool_decide as Hin.
  - destruct (nightly_present h _ v Hin) as (l1 & l2 & _ & _ & ->).
    eexists. split; [done|]. cbn [setup_args setup_call version].
    by rewrite strftime_yyyymmdd.
  - rewrite (nightly_absent h _ v Hin). by eexists.
Qed.

Lemma version_from_metadata_witness :
  ∃ r, setup_py host_example = inr r ∧
       version (setup_args r) = "0.1.3.dev20220409".
Proof.
  apply (version_from_metadata host_example {[ "__version__" := "0.1.3" ]} "0.1.3").
  - reflexivity.
  - reflexivity.
  - unfold valid_now. simpl. lia.
Defined.

(** ** The command line *)

Lemma setup_py_with_argv argv h :
  setup_py (with_argv argv h)
  = match load_version h with
    | inl e => inl e
    | inr v =>
        match nightly h argv v with
        | inl e => inl e
        | inr (argv', v') =>
            inr {| setup_args := setup_call h v'; argv_at_setup := argv' |}
        end
    end.
Proof. reflexivity. Qed.

Lemma nightly_version h a1 a2 v :
  ("--nightly" ∈ a1 ↔ "--nightly" ∈ a2) →
  match nightly h a1 v, nightly h a2 v with
  | inr (_, v1), inr (_, v2) => v1 = v2
  | _, _ => False
  end.
Proof.
  intros Hiff. destruct (decide ("--nightly" ∈ a1)) as [H1|H1].
  - destruct (nightly_present h _ v H1) as (? & ? & _ & _ & ->).
    apply Hiff in H1.
    by destruct (nightly_present h _ v H1) as (? & ? & _ & _ & ->).
  - rewrite (nightly_absent h _ v H1).
    assert (H2 : "--nightly" ∉ a2) by (by rewrite <- Hiff).
    by rewrite (nightly_absent h _ v H2).
Qed.

(** C3, as stated, fails: two invocations on the same host that differ only
    in their command line, one with [--nightly] and one without, configure
    different version strings. *)
Lemma version_depends_on_argv :
  let a1 := ["setup.py"; "sdist"] in
  let a2 := ["setup.py"; "sdist"; "--nightly"] in
  configured_version (with_argv a1 host_example) = Some "0.1.3" ∧
  configured_version (with_argv a2 host_example) = Some "0.1.3.dev20220409" ∧
  ¬ (∀ h b1 b2, configured (with_argv b1 h) = configured (with_argv b2 h)).
Proof.
  split_and!; [reflexivity..|].
  intros H.
  specialize (H host_example ["setup.py"; "sdist"]
                ["setup.py"; "sdist"; "--nightly"]).
  assert (Hv : configured_version (with_argv ["setup.py"; "sdist"] host_example)
               = configured_version
                   (with_argv ["setup.py"; "sdist"; "--nightly"] host_example))
    by (unfold configured_version; by rewrite H).
  vm_compute in Hv. discriminate Hv.
Qed.

(** C3, amended: [--nightly] is the one command-line token the script
    interprets.  Two invocations on the same host whose command lines both
    contain it, or both lack it, configure identical arguments, the version
    string among them. *)
Theorem configured_same_nightly (h : Host) (a1 a2 : list string) :
  ("--nightly" ∈ a1 ↔ "--nightly" ∈ a2) →
  configured (with_argv a1 h) = configured (with_argv a2 h).
Proof.
  intros Hiff. unfold configured. rewrite !setup_py_with_argv.
  destruct (load_version h) as [e|v]; [done|].
  pose proof (nightly_version h a1 a2 v Hiff) as Hv.
  destruct (nightly h a1 v) as [?|[? v1]], (nightly h a2 v) as [?|[? v2]];
    try done.
  by subst.
Qed.

Lemma configured_same_nightly_witness :
  configured (with_argv ["setup.py"; "--nightly"; "sdist"] host_example)
  = configured (with_argv ["setup.py"; "bdist_wheel"; "--nightly"] host_example).
Proof.
  apply (configured_same_nightly host_example).
  split; intros _; apply (bool_decide_unpack _); vm_compute; exact I.
Defined.

(** ** The extras *)

(** C4: the [extras_require] mapping of the [setup] call holds the
    tensorflow bundle (tensorflow, tensorflow_probability, dm-sonnet, trfl)
    under [tf]; the JAX bundle (chex, jax, jaxlib, dm-haiku, flax, optax,
    rlax, followed by the tensorflow bundle) under [jax], so that every
    requirement found under [tf] is found under [jax]; the environment
    suites under [pz], [flatland], [open_spiel] and [sc2]; under [envs] the
    PettingZoo list followed by the OpenSpiel and SMAC lists; and the testing
    and formatting bundle under [testing_formatting]. *)
Theorem extras_require_groups (h : Host) (r : Run) :
  setup_py h = inr r →
  let extras := extras_require (setup_args r) in
  let tf :=
    ["tensorflow~=2.7.0"; "tensorflow_probability~=0.15.0"; "dm-sonnet";
     "trfl"] in
  let pz :=
    ["pettingzoo~=1.17.0"; "multi_agent_ale_py"; "supersuit==3.3.4";
     "pygame"; "pysc2"] in
  let open_spiel := ["open_spiel"] in
  let sc2 := ["pysc2"; "SMAC @ git+https://github.com/oxwhirl/smac.git"] in
  extras !! "tf" = Some tf ∧
  extras !! "jax"
    = Some (["chex"; "jax"; "jaxlib"; "dm-haiku"; "flax"; "optax"; "rlax"]
              ++ tf) ∧
  (∀ tf_bundle jax_bundle req,
     extras !! "tf" = Some tf_bundle →
     extras !! "jax" = Some jax_bundle →
     req ∈ tf_bundle → req ∈ jax_bundle) ∧
  extras !! "pz" = Some pz ∧
  extras !! "flatland" = Some ["flatland-rl==3.0.1"] ∧
  extras !! "open_spiel" = Some open_spiel ∧
  extras !! "sc2" = Some sc2 ∧
  extras !! "envs" = Some (pz ++ open_spiel ++ sc2) ∧
  extras !! "testing_formatting"
    = Some ["pytest==6.2.4"; "pre-commit"; "mypy==0.941"; "pytest-xdist";
            "flake8==3.8.2"; "black==22.3.0"; "pytest-cov"; "interrogate";
            "pydocstyle"; "types-six"].
Proof.
  intros Hr. destruct (setup_py_ok h r Hr) as (ns & v & argv & v' & _ & _ & _ & ->).
  cbn [setup_args setup_call extras_require]. cbv zeta.
  split_and!; try (vm_compute; reflexivity).
  intros tf_bundle jax_bundle req Htf Hjax.
  vm_compute in Htf, Hjax. injection Htf as <-. injection Hjax as <-.
  intros Hreq.
  change (req ∈ ["chex"; "jax"; "jaxlib"; "dm-haiku"; "flax"; "optax"; "rlax"]
                 ++ ["tensorflow~=2.7.0"; "tensorflow_probability~=0.15.0";
                     "dm-sonnet"; "trfl"]).
  apply elem_of_app. by right.
Qed.

Lemma extras_require_groups_witness :
  ∃ r, setup_py host_example = inr r ∧
       extras_require (setup_args r) !! "tf"
       = Some ["tensorflow~=2.7.0"; "tensorflow_probability~=0.15.0";
               "dm-sonnet"; "trfl"] ∧
       extras_require (setup_args r) !! "jax"
       = Some ["chex"; "jax"; "jaxlib"; "dm-haiku"; "flax"; "optax"; "rlax";
               "tensorflow~=2.7.0"; "tensorflow_probability~=0.15.0";
               "dm-sonnet"; "trfl"] ∧
       extras_require (setup_args r) !! "envs"
       = Some ["pettingzoo~=1.17.0"; "multi_agent_ale_py"; "supersuit==3.3.4";
               "pygame"; "pysc2"; "open_spiel"; "pysc2";
               "SMAC @ git+https://github.com/oxwhirl/smac.git"].
Proof.
  eexists. split; [reflexivity|].
  destruct (extras_require_groups host_example _ eq_refl)
    as (Htf & Hjax & _ & _ & _ & _ & _ & Henvs & _).
  split_and!; [exact Htf|exact Hjax|exact Henvs].
Defined.

(** ** The argument vector *)

(** C10: in a run that reaches [setup], when [--nightly] is among
    [sys.argv] the vector at the call is the original one with its first
    [--nightly] taken out, every other element kept in place and in order;
    when it is not, the vector is the original one. *)
Theorem argv_nightly_removed (h : Host) (r : Run) :
  setup_py h = inr r →
  ("--nightly" ∈ sys_argv h →
     ∃ before after,
       sys_argv h = before ++ ("--nightly" :: after) ∧
       ("--nightly" ∉ before) ∧
       argv_at_setup r = before ++ after) ∧
  ("--nightly" ∉ sys_argv h → argv_at_setup r = sys_argv h).
Proof.
  intros Hr.
  destruct (setup_py_ok h r Hr) as (ns & v & argv & v' & _ & _ & Hn & ->).
  cbn [argv_at_setup]. split; intros Hin.
  - destruct (nightly_present h _ v Hin) as (l1 & l2 & Heq & Hl1 & Hn').
    exists l1, l2. split_and!; [done..|]. congruence.
  - rewrite (nightly_absent h _ v Hin) in Hn. congruence.
Qed.

Lemma argv_nightly_removed_witness :
  ∃ r, setup_py host_example = inr r ∧
       ∃ before after,
         sys_argv host_example = before ++ ("--nightly" :: after) ∧
         ("--nightly" ∉ before) ∧
         argv_at_setup r = before ++ after.
Proof.
  eexists. split; [reflexivity|].
  apply (argv_nightly_removed host_example _ eq_refl).
  apply (bool_decide_unpack _). vm_compute. exact I.
Defined.

(** * Facts about the MAD4PG system test *)

Import Mad4pgTest.

Section TestFacts.

Context {World : Type} (ext : call → World → outcome * World).

Lemma wp_exec {A} (p : prog A) (Q : list entry → exn + A → Prop) :
  ∀ w past, wp p past Q → Q (exec ext p w past).1 (exec ext p w past).2.
Proof.
  induction p as [a|e|c k IH]; intros w past Hwp; [done..|].
  destruct Hwp as [Hraise Hret]. cbn [exec].
  destruct (ext c w) as [[v|e] w'].
  - by apply IH.
  - apply Hraise.
Qed.

Lemma wp_run {A} (p : prog A) (Q : list entry → exn + A → Prop) (w : World) :
  wp p [] Q → ∀ tr r, run ext p w = (tr, r) → Q tr r.
Proof.
  intros Hwp tr r Hrun. pose proof (wp_exec p Q w [] Hwp) as H.
  unfold run in Hrun. by rewrite Hrun in H.
Qed.

End TestFacts.

Lemma unpack1_cases (v : value) :
  (∃ x, py_items v = Some [x] ∧ unpack1 v = Ret x) ∨
  ((∀ x, py_items v ≠ Some [x]) ∧ ∃ e, unpack1 v = Throw e).
Proof.
  unfold unpack1. destruct (py_items v) as [[|x [|y l]]|].
  - right. split; [congruence|eauto].
  - left. eauto.
  - right. split; [congruence|eauto].
  - right. split; [congruence|eauto].
Qed.

(** Walking through all the runs of a test: at each call the libraries
    raise or return; an unpacked value holds one item or the unpacking
    raises. *)
Ltac wp_cbn :=
  cbn [wp bind for_each call_ method getattr getitem].

Ltac wp_walk :=
  lazymatch goal with
  | |- wp (bind (unpack1 ?v) _) _ _ =>
      let node := fresh "node" in
      let Hitems := fresh "Hitems" in
      let Hu := fresh "Hu" in
      destruct (unpack1_cases v) as [(node & Hitems & Hu)|(_ & ? & Hu)];
      rewrite Hu; clear Hu; wp_cbn; wp_walk
  | |- _ ∧ _ => split; [intros ?|intros ?; wp_walk]
  | |- _ => idtac
  end.

(** All the runs of the test of a variant: the goal [wp (test v) [] Q] is
    turned into one goal [Q tr r] for each way the run can end, with [tr]
    the record of that run. *)
Ltac wp_all_runs v :=
  destruct v;
  lazymatch goal with
  | |- wp _ _ ?P =>
      let Q := fresh "Q" in
      set (Q := P);
      unfold test, test_mad4pg_on_debugging_env,
        test_recurrent_mad4pg_on_debugging_env,
        test_centralised_mad4pg_on_debugging_env,
        test_state_based_mad4pg_on_debugging_env, range, functools_partial;
      cbn [seq]; wp_cbn; wp_walk; subst Q; cbv beta
  end.

(** ** The trainer steps *)



(** ** The environment *)



(** ** The configuration *)



(** ** The trainer node *)



(** ** Checkpoints and devices *)



(** * Further facts about the install script *)

Section MoreListFacts.

Lemma occurrences_app x l1 l2 :
  occurrences x (l1 ++ l2) = (occurrences x l1 + occurrences x l2)%nat.
Proof. unfold occurrences. by rewrite filter_app, length_app. Qed.

Lemma occurrences_cons x y l :
  occurrences x (y :: l)
  = ((if decide (y = x) then 1 else 0) + occurrences x l)%nat.
Proof.
  unfold occurrences. rewrite filter_cons. by destruct (decide (y = x)).
Qed.

Lemma occurrences_absent x l : x ∉ l → occurrences x l = 0%nat.
Proof.
  induction l as [|y l IH]; intros Hx; [done|].
  apply not_elem_of_cons in Hx as [Hne Hl].
  rewrite occurrences_cons, IH by done.
  by destruct (decide (y = x)) as [->|].
Qed.

Lemma occurrences_present x l : x ∈ l ↔ (1 ≤ occurrences x l)%nat.
Proof.
  split.
  - intros Hx. induction l as [|y l IH]; [by apply elem_of_nil in Hx|].
    rewrite occurrences_cons. destruct (decide (y = x)); [lia|].
    apply elem_of_cons in Hx as [->|Hx]; [done|]. specialize (IH Hx). lia.
  - intros Hc. destruct (decide (x ∈ l)) as [|Hx]; [done|].
    rewrite (occurrences_absent x l Hx) in Hc. lia.
Qed.

Lemma string_length_append (s t : string) :
  String.length (s +:+ t) = (String.length s + String.length t)%nat.
Proof.
  induction s as [|c s IH]; [done|].
  change (S (String.length (s +:+ t)) = S (String.length s + String.length t)).
  by rewrite IH.
Qed.

Lemma string_prefix_append (s t : string) : String.prefix s (s +:+ t) = true.
Proof.
  induction s as [|c s IH]; [by destruct t|].
  change (String.prefix (String c s) (String c (s +:+ t)) = true).
  cbn [String.prefix]. by destruct (ascii_dec c c).
Qed.

Lemma string_append_inj_l (s t1 t2 : string) :
  s +:+ t1 = s +:+ t2 → t1 = t2.
Proof.
  induction s as [|c s IH]; [done|].
  change (String c (s +:+ t1) = String c (s +:+ t2) → t1 = t2).
  intros [=]. by apply IH.
Qed.

End MoreListFacts.

(** ** Reaching [setup] *)

(** When the metadata module loads and defines [__version__], the script
    reaches [setup] whatever the command line and the clock: the removal of
    [--nightly] is guarded by the membership test and never raises
    [ValueError], also when the token is repeated or absent. *)
Theorem setup_reached_when_version_loads (h : Host)
  (ns : gmap string string) (v : string) :
  metadata_module h = Some ns →
  ns !! "__version__" = Some v →
  (∀ argv, ∃ argv' v', nightly h argv v = inr (argv', v')) ∧
  ∃ r, setup_py h = inr r.
Proof.
  intros Hm Hv.
  assert (Hn : ∀ argv, ∃ argv' v', nightly h argv v = inr (argv', v')).
  { intros argv. destruct (decide ("--nightly" ∈ argv)) as [Hin|Hin].
    - destruct (nightly_present h argv v Hin) as (? & ? & _ & _ & ->). eauto.
    - rewrite (nightly_absent h argv v Hin). eauto. }
  split; [exact Hn|].
  unfold setup_py, load_version. rewrite Hm, Hv.
  destruct (Hn (sys_argv h)) as (? & ? & ->). eauto.
Qed.

Lemma setup_reached_when_version_loads_witness :
  (∀ argv, ∃ argv' v', nightly host_example argv "0.1.3" = inr (argv', v')) ∧
  ∃ r, setup_py host_example = inr r.
Proof.
  apply (setup_reached_when_version_loads host_example
           {[ "__version__" := "0.1.3" ]} "0.1.3"); reflexivity.
Defined.

(** ** Repeated [--nightly] *)

(** In a run that reaches [setup], the vector at the call has one
    [--nightly] less than [sys.argv] had (none less when it had none) and as
    many of every other token; so a [--nightly] is still there at the call
    exactly when the command line had two or more, and the vector is
    shorter by one exactly when the command line had one at all. *)
Theorem nightly_removed_once (h : Host) (r : Run) :
  setup_py h = inr r →
  occurrences "--nightly" (argv_at_setup r)
  = (occurrences "--nightly" (sys_argv h) - 1)%nat ∧
  (∀ x, x ≠ "--nightly" →
        occurrences x (argv_at_setup r) = occurrences x (sys_argv h)) ∧
  ("--nightly" ∈ argv_at_setup r
   ↔ (2 ≤ occurrences "--nightly" (sys_argv h))%nat) ∧
  length (argv_at_setup r)
  = (length (sys_argv h)
     - if py_in "--nightly" (sys_argv h) then 1 else 0)%nat.
Proof.
  intros Hr.
  destruct (setup_py_ok h r Hr) as (ns & v & argv & v' & _ & _ & Hn & ->).
  cbn [argv_at_setup].
  destruct (decide ("--nightly" ∈ sys_argv h)) as [Hin|Hin].
  - destruct (nightly_present h _ v Hin) as (l1 & l2 & Heq & Hl1 & Hn').
    rewrite Hn' in Hn. injection Hn as <- _.
    apply py_in_true in Hin. rewrite Hin, Heq.
    pose proof (occurrences_absent _ _ Hl1) as H0.
    rewrite occurrences_present, !occurrences_app, !occurrences_cons, H0.
    rewrite !length_app. cbn [length].
    destruct (decide ("--nightly" = "--nightly")); [|done].
    split_and!; [lia| |lia|lia].
    intros x Hx. rewrite !occurrences_app, occurrences_cons.
    destruct (decide ("--nightly" = x)); [congruence|lia].
  - rewrite (nightly_absent h _ v Hin) in Hn. injection Hn as <- _.
    pose proof (occurrences_absent _ _ Hin) as H0.
    rewrite occurrences_present, H0.
    apply py_in_false in Hin. rewrite Hin.
    split_and!; [lia|done|lia|lia].
Qed.

Lemma nightly_removed_once_witness :
  ∃ r, setup_py host_example = inr r ∧
       ("--nightly" ∈ argv_at_setup r
        ↔ (2 ≤ occurrences "--nightly" (sys_argv host_example))%nat).
Proof.
  eexists. split; [reflexivity|].
  apply (nightly_removed_once host_example _ eq_refl).
Defined.

(** ** Nightly versions *)

Section NightlyFacts.

Lemma int_fixed4 (n : N) : (n < 10000)%N → int (fixed4 n) = n.
Proof.
  intros Hn. apply N.eqb_eq.
  apply (below_forallb (λ k, N.eqb (int (fixed4 k)) k) (N.to_nat 10000));
    [|by rewrite N2Nat.id].
  vm_compute. reflexivity.
Qed.

Lemma int_fixed2 (n : N) : (n < 100)%N → int (fixed2 n) = n.
Proof.
  intros Hn. apply N.eqb_eq.
  apply (below_forallb (λ k, N.eqb (int (fixed2 k)) k) (N.to_nat 100));
    [|by rewrite N2Nat.id].
  vm_compute. reflexivity.
Qed.

Lemma yyyymmdd_fields (d : datetime) :
  yyyymmdd d = fixed4 (year d) +:+ fixed2 (month d) +:+ fixed2 (day d).
Proof. reflexivity. Qed.

Lemma yyyymmdd_inj (d1 d2 : datetime) :
  valid_now d1 → valid_now d2 → yyyymmdd d1 = yyyymmdd d2 → d1 = d2.
Proof.
  intros (Hy1 & Hm1 & Hd1) (Hy2 & Hm2 & Hd2) H.
  unfold yyyymmdd in H. injection H as Ha Hb Hc Hd He Hf Hg Hh.
  assert (Hy : fixed4 (year d1) = fixed4 (year d2))
    by (unfold fixed4; congruence).
  assert (Hm : fixed2 (month d1) = fixed2 (month d2))
    by (unfold fixed2; congruence).
  assert (Hdd : fixed2 (day d1) = fixed2 (day d2))
    by (unfold fixed2; congruence).
  clear Ha Hb Hc Hd He Hf Hg Hh.
  apply (f_equal int) in Hy, Hm, Hdd.
  rewrite !int_fixed4 in Hy by lia. rewrite !int_fixed2 in Hm, Hdd by lia.
  destruct d1, d2. cbn [year month day] in *. by subst.
Qed.

End NightlyFacts.

(** A nightly build on a date with a four-digit year configures a version
    that starts with the released version, is twelve characters longer
    ([.dev] and eight digits) and so is never the released version
    itself. *)
Theorem nightly_version_extends (h : Host) (ns : gmap string string)
  (v : string) :
  metadata_module h = Some ns →
  ns !! "__version__" = Some v →
  valid_now (now h) →
  "--nightly" ∈ sys_argv h →
  ∃ r, setup_py h = inr r ∧
       String.prefix v (version (setup_args r)) = true ∧
       String.length (version (setup_args r)) = (String.length v + 12)%nat ∧
       version (setup_args r) ≠ v.
Proof.
  intros Hm Hv Hnow Hin. unfold setup_py, load_version. rewrite Hm, Hv.
  destruct (nightly_present h _ v Hin) as (l1 & l2 & _ & _ & ->).
  eexists. split; [done|]. cbn [setup_args setup_call version].
  rewrite strftime_yyyymmdd by done.
  assert (Hlen : String.length (v +:+ ".dev" +:+ yyyymmdd (now h))
                 = (String.length v + 12)%nat)
    by (by rewrite string_length_append).
  split_and!; [apply string_prefix_append|done|].
  intros Heq. rewrite Heq in Hlen. lia.
Qed.

Lemma nightly_version_extends_witness :
  ∃ r, setup_py host_example = inr r ∧
       String.prefix "0.1.3" (version (setup_args r)) = true ∧
       String.length (version (setup_args r)) = 17%nat ∧
       version (setup_args r) ≠ "0.1.3".
Proof.
  apply (nightly_version_extends host_example
           {[ "__version__" := "0.1.3" ]} "0.1.3").
  - reflexivity.
  - reflexivity.
  - unfold valid_now. simpl. lia.
  - apply (bool_decide_unpack _). vm_compute. exact I.
Defined.

(** Two nightly builds of the same released version, made on dates with
    four-digit years, configure the same version string only if the two
    dates are the same day: the date can be read back from the version. *)
Theorem nightly_versions_differ_by_date (h1 h2 : Host) (r1 r2 : Run)
  (ns1 ns2 : gmap string string) (v : string) :
  metadata_module h1 = Some ns1 → ns1 !! "__version__" = Some v →
  metadata_module h2 = Some ns2 → ns2 !! "__version__" = Some v →
  "--nightly" ∈ sys_argv h1 → "--nightly" ∈ sys_argv h2 →
  valid_now (now h1) → valid_now (now h2) →
  setup_py h1 = inr r1 → setup_py h2 = inr r2 →
  version (setup_args r1) = version (setup_args r2) →
  now h1 = now h2.
Proof.
  intros Hm1 Hv1 Hm2 Hv2 Hin1 Hin2 Hnow1 Hnow2 Hr1 Hr2 Heq.
  unfold setup_py, load_version in Hr1, Hr2.
  rewrite Hm1, Hv1 in Hr1. rewrite Hm2, Hv2 in Hr2.
  destruct (nightly_present h1 _ v Hin1) as (? & ? & _ & _ & Hn1).
  destruct (nightly_present h2 _ v Hin2) as (? & ? & _ & _ & Hn2).
  rewrite strftime_yyyymmdd in Hn1, Hn2 by done.
  rewrite Hn1 in Hr1. rewrite Hn2 in Hr2.
  injection Hr1 as <-. injection Hr2 as <-.
  cbn [setup_args setup_call version] in Heq.
  apply string_append_inj_l in Heq.
  apply (string_append_inj_l ".dev") in Heq.
  by apply yyyymmdd_inj.
Qed.

Lemma nightly_versions_differ_by_date_witness :
  now host_example = now (with_argv ["setup.py"; "--nightly"] host_example).
Proof.
  eapply (nightly_versions_differ_by_date host_example
            (with_argv ["setup.py"; "--nightly"] host_example) _ _
            {[ "__version__" := "0.1.3" ]} {[ "__version__" := "0.1.3" ]}
            "0.1.3");
    try reflexivity;
    try (apply (bool_decide_unpack _); vm_compute; exact I);
    unfold valid_now; simpl; lia.
Defined.

(** ** Releases and the clock *)

(** Without [--nightly] on the command line the script does not look at the
    clock: on two hosts that differ only in the date, it ends the same way,
    with the same arguments for [setup] and the same [sys.argv]. *)
Theorem release_ignores_clock (h : Host) (d : datetime) :
  "--nightly" ∉ sys_argv h → setup_py (with_now d h) = setup_py h.
Proof.
  intros Hin. unfold setup_py, load_version. cbn [with_now metadata_module sys_argv].
  destruct (metadata_module h) as [ns|]; [|done].
  destruct (ns !! "__version__") as [v|]; [|done].
  by rewrite (nightly_absent h _ v Hin), (nightly_absent (with_now d h) _ v Hin).
Qed.

Lemma release_ignores_clock_witness :
  setup_py (with_now {| year := 1999; month := 12; day := 31 |}
              (with_argv ["setup.py"; "sdist"] host_example))
  = setup_py (with_argv ["setup.py"; "sdist"] host_example).
Proof.
  apply release_ignores_clock.
  apply (bool_decide_unpack _). vm_compute. exact I.
Defined.

(** ** What the host cannot change *)

(** Whatever the metadata, the command line, the clock and the package
    directories, two runs that reach [setup] pass the same name,
    descriptions, author, license, keywords, requirements, extras and
    classifiers; of the twelve arguments only the version and the package
    list depend on the host, and the package list is [find_packages()]. *)
Theorem setup_args_fixed (h1 h2 : Host) (r1 r2 : Run) :
  setup_py h1 = inr r1 →
  setup_py h2 = inr r2 →
  name (setup_args r1) = name (setup_args r2) ∧
  description (setup_args r1) = description (setup_args r2) ∧
  long_description_arg (setup_args r1) = long_description_arg (setup_args r2) ∧
  long_description_content_type (setup_args r1)
  = long_description_content_type (setup_args r2) ∧
  author (setup_args r1) = author (setup_args r2) ∧
  license (setup_args r1) = license (setup_args r2) ∧
  keywords (setup_args r1) = keywords (setup_args r2) ∧
  install_requires (setup_args r1) = install_requires (setup_args r2) ∧
  extras_require (setup_args r1) = extras_require (setup_args r2) ∧
  classifiers (setup_args r1) = classifiers (setup_args r2) ∧
  packages (setup_args r1) = find_packages h1 ∧
  packages (setup_args r2) = find_packages h2.
Proof.
  intros Hr1 Hr2.
  destruct (setup_py_ok h1 r1 Hr1) as (? & ? & ? & ? & _ & _ & _ & ->).
  destruct (setup_py_ok h2 r2 Hr2) as (? & ? & ? & ? & _ & _ & _ & ->).
  by split_and!.
Qed.

Lemma setup_args_fixed_witness :
  ∃ r1 r2,
    setup_py host_example = inr r1 ∧
    setup_py (with_argv ["setup.py"] host_example) = inr r2 ∧
    extras_require (setup_args r1) = extras_require (setup_args r2).
Proof.
  eexists _, _. split_and!; [reflexivity..|].
  apply (setup_args_fixed host_example (with_argv ["setup.py"] host_example)
           _ _ eq_refl eq_refl).
Defined.

(** ** The keys of the extras *)

Section DictFacts.

Context {V : Type}.

Lemma dict_display_snoc (items : list (string * V)) (k : string) (v : V) :
  dict_display (items ++ [(k, v)]) = <[k := v]> (dict_display items).
Proof. unfold dict_display. by rewrite foldl_app. Qed.

(** A key is bound by a display exactly when an item has it. *)
Lemma dict_display_is_Some (items : list (string * V)) (k : string) :
  is_Some (dict_display items !! k) ↔ k ∈ items.*1.
Proof.
  induction items as [|[k' v'] items IH] using rev_ind.
  - unfold dict_display. cbn. rewrite lookup_empty, elem_of_nil.
    split; [by intros [? ?]|done].
  - rewrite dict_display_snoc, fmap_app, elem_of_app. cbn.
    rewrite list_elem_of_singleton.
    destruct (decide (k' = k)) as [->|Hne].
    + rewrite lookup_insert_eq. split; [by right|eauto].
    + rewrite lookup_insert_ne by done. rewrite IH.
      split; [by left|]. intros [?|?]; [done|congruence].
Qed.

End DictFacts.

(** In a run that reaches [setup], [extras_require] binds exactly the
    eleven keys written in the display, each once, so no bundle replaces
    another; every bundle holds at least one requirement, and any other
    key is missing. *)
Theorem extras_require_keys (h : Host) (r : Run) :
  setup_py h = inr r →
  let extras := extras_require (setup_args r) in
  NoDup extras_keys ∧
  size extras = length extras_keys ∧
  (∀ key, is_Some (extras !! key) ↔ key ∈ extras_keys) ∧
  (∀ key bundle, extras !! key = Some bundle → bundle ≠ []).
Proof.
  intros Hr.
  destruct (setup_py_ok h r Hr) as (ns & v & argv & v' & _ & _ & _ & ->).
  cbn [setup_args setup_call extras_require].
  split_and!.
  - apply (bool_decide_unpack _). vm_compute. exact I.
  - vm_compute. reflexivity.
  - intros key. rewrite dict_display_is_Some. reflexivity.
  - intros key bundle Hb.
    assert (Hkey : key ∈ extras_keys).
    { assert (His : is_Some (dict_display
                               _ !! key)) by eauto.
      apply dict_display_is_Some in His. exact His. }
    unfold extras_keys in Hkey.
    repeat (apply elem_of_cons in Hkey as [->|Hkey];
            [vm_compute in Hb; by injection Hb as <-|]).
    by apply elem_of_nil in Hkey.
Qed.

Lemma extras_require_keys_witness :
  ∃ r, setup_py host_example = inr r ∧
       size (extras_require (setup_args r)) = 11%nat.
Proof.
  eexists. split; [reflexivity|].
  apply (extras_require_keys host_example _ eq_refl).
Defined.

(** * Further facts about the MAD4PG system test *)

Lemma unpack1_outcome (v : value) :
  (∃ x, py_items v = Some [x] ∧ unpack1 v = Ret x) ∨
  (py_items v = None ∧ unpack1 v = Throw TypeError) ∨
  (∃ l, py_items v = Some l ∧ length l ≠ 1%nat ∧ unpack1 v = Throw ValueError).
Proof.
  unfold unpack1. destruct (py_items v) as [[|x [|y l]]|].
  - right; right. by exists [].
  - left. eauto.
  - right; right. by exists (x :: y :: l).
  - right; left. done.
Qed.

(** As [wp_walk], remembering in [Hitems] what the unpacked value yields
    and, when the unpacking raises, in [Hlen] that it is not one item. *)
Ltac wp_walk_unpack :=
  lazymatch goal with
  | |- wp (bind (unpack1 ?v) _) _ _ =>
      let node := fresh "node" in
      let l := fresh "items" in
      let Hitems := fresh "Hitems" in
      let Hlen := fresh "Hlen" in
      let Hu := fresh "Hu" in
      destruct (unpack1_outcome v)
        as [(node & Hitems & Hu)|[[Hitems Hu]|(l & Hitems & Hlen & Hu)]];
      rewrite Hu; clear Hu; wp_cbn; wp_walk_unpack
  | |- _ ∧ _ => split; [intros ?|intros ?; wp_walk_unpack]
  | |- _ => idtac
  end.

Ltac wp_all_runs_unpack v :=
  destruct v;
  lazymatch goal with
  | |- wp _ _ ?P =>
      let Q := fresh "Q" in
      set (Q := P);
      unfold test, test_mad4pg_on_debugging_env,
        test_recurrent_mad4pg_on_debugging_env,
        test_centralised_mad4pg_on_debugging_env,
        test_state_based_mad4pg_on_debugging_env, range, functools_partial;
      cbn [seq]; wp_cbn; wp_walk_unpack; subst Q; cbv beta
  end.

(** ** The order of the calls *)

(** In a run of any of the four tests the operations performed are, in
    order, an initial part of the sixteen of the test body: the network
    factory, two optimizers, the system, [build], the trainer group and
    [disable_run], the device placement, the launch, the trainer handle and
    two steps.  A run that ends without an exception performs all sixteen,
    and nothing is ever called out of this order or a second time. *)
Theorem calls_follow_script (v : variant) {World : Type}
  (ext : call → World → outcome * World) (w : World)
  (tr : list entry) (r : exn + ()) :
  run ext (test v) w = (tr, r) →
  operation <$> invocations tr `prefix_of` script ∧
  (r = inr () ↔ operation <$> invocations tr = script ∧ raised tr = []).
Proof.
  revert tr r. refine (wp_run ext (test v) _ w _).
  wp_all_runs v; vm_compute;
    (split; [by eexists|]); (split; [intros Hr|intros [Hs Hx]]);
    first [discriminate | done].
Qed.

Lemma calls_follow_script_witness :
  ∃ tr, run fresh_world (test StateBased) 0%nat = (tr, inr ()) ∧
        operation <$> invocations tr = script.
Proof.
  eexists. split; [reflexivity|].
  apply (calls_follow_script StateBased fresh_world 0%nat _ _ eq_refl).
  reflexivity.
Defined.

(** ** The unpacking of the trainer group *)

(** In a run of any of the four tests in which the subscript
    [program.groups["trainer"]] returns: if the group yields exactly one
    node, the next call is [disable_run] on that node; if it yields no node
    or several, the test ends there with [ValueError], and if it is not
    iterable, with [TypeError]; in both cases nothing more is called, so the
    program is never launched. *)
Theorem trainer_group_unpacked (v : variant) {World : Type}
  (ext : call → World → outcome * World) (w : World)
  (tr : list entry) (r : exn + ())
  (trainer_nodes : value) (rest : list entry) :
  run ext (test v) w = (tr, r) →
  after is_subscript tr = Some (Return trainer_nodes :: rest) →
  match py_items trainer_nodes with
  | Some [trainer_node] =>
      ∃ rest', rest = Invoke (Method trainer_node "disable_run" [] []) :: rest'
  | Some _ => rest = [] ∧ r = inl ValueError ∧ launched tr = false
  | None => rest = [] ∧ r = inl TypeError ∧ launched tr = false
  end.
Proof.
  revert tr r. refine (wp_run ext (test v) _ w _).
  wp_all_runs_unpack v; intros Hafter; vm_compute in Hafter;
    try discriminate Hafter;
    injection Hafter as <- <-; rewrite Hitems;
    first
      [ by eexists
      | by split_and!
      | destruct items as [|? [|? ?]]; [by split_and!|done|by split_and!] ].
Qed.

Lemma trainer_group_unpacked_witness :
  ∃ tr, run two_nodes_world (test Feedforward) 0%nat = (tr, inl ValueError) ∧
        launched tr = false.
Proof.
  eexists. split; [reflexivity|].
  refine (proj2 (proj2
    (trainer_group_unpacked Feedforward two_nodes_world 0%nat _ _
       (VList [VObj 6; VObj 7]) [] eq_refl eq_refl))).
Defined.

(** ** The optimizers *)



(** ** What tells the variants apart *)



(** ** From the system to the trainer *)

(** In a run of any of the four tests that ends without an exception, the
    record after the start of the construction of the system is one chain:
    [build] is called on the system constructed; both reads of [groups] are
    on the program built; [disable_run] and [create_handle] are on the one
    node of its trainer group; [lp_utils.to_device] receives the keys of the
    second read; [lp.launch] receives the program built and the resources
    returned; the handle created is dereferenced and both steps are on the
    trainer so obtained. *)
Theorem objects_flow (v : variant) {World : Type}
  (ext : call → World → outcome * World) (w : World)
  (tr : list entry) (r : exn + ()) :
  run ext (test v) w = (tr, r) →
  r = inr () →
  ∃ system program groups trainer_nodes trainer_node disabled groups'
    program_nodes local_resources launch_result handle trainer
    result1 result2,
    after (is_call "mad4pg.MAD4PG") tr
    = Some [Return system;
            Invoke (Method system "build" [] []);
            Return program;
            Invoke (GetAttr program "groups");
            Return groups;
            Invoke (GetItem groups (VStr "trainer"));
            Return trainer_nodes;
            Invoke (Method trainer_node "disable_run" [] []);
            Return disabled;
            Invoke (GetAttr program "groups");
            Return groups';
            Invoke (Method groups' "keys" [] []);
            Return program_nodes;
            Invoke (Call (VName "lp_utils.to_device") []
                      [("program_nodes", program_nodes);
                       ("nodes_on_gpu", VList [])]);
            Return local_resources;
            Invoke (Call (VName "lp.launch") [program]
                      [("launch_type", VStr "test_mt");
                       ("local_resources", local_resources)]);
            Return launch_result;
            Invoke (Method trainer_node "create_handle" [] []);
            Return handle;
            Invoke (Method handle "dereference" [] []);
            Return trainer;
            Invoke (Method trainer "step" [] []);
            Return result1;
            Invoke (Method trainer "step" [] []);
            Return result2] ∧
    py_items trainer_nodes = Some [trainer_node].
Proof.
  revert tr r. refine (wp_run ext (test v) _ w _).
  wp_all_runs v; intros Hr; first
    [ discriminate Hr
    | do 14 eexists; split; [vm_compute; reflexivity|exact Hitems] ].
Qed.

Lemma objects_flow_witness :
  ∃ tr, run fresh_world (test StateBased) 0%nat = (tr, inr ()) ∧
        ∃ system program groups trainer_nodes trainer_node disabled groups'
          program_nodes local_resources launch_result handle trainer
          result1 result2,
          after (is_call "mad4pg.MAD4PG") tr
          = Some [Return system;
                  Invoke (Method system "build" [] []);
                  Return program;
                  Invoke (GetAttr program "groups");
                  Return groups;
                  Invoke (GetItem groups (VStr "trainer"));
                  Return trainer_nodes;
                  Invoke (Method trainer_node "disable_run" [] []);
                  Return disabled;
                  Invoke (GetAttr program "groups");
                  Return groups';
                  Invoke (Method groups' "keys" [] []);
                  Return program_nodes;
                  Invoke (Call (VName "lp_utils.to_device") []
                            [("program_nodes", program_nodes);
                             ("nodes_on_gpu", VList [])]);
                  Return local_resources;
                  Invoke (Call (VName "lp.launch") [program]
                            [("launch_type", VStr "test_mt");
                             ("local_resources", local_resources)]);
                  Return launch_result;
                  Invoke (Method trainer_node "create_handle" [] []);
                  Return handle;
                  Invoke (Method handle "dereference" [] []);
                  Return trainer;
                  Invoke (Method trainer "step" [] []);
                  Return result1;
                  Invoke (Method trainer "step" [] []);
                  Return result2] ∧
          py_items trainer_nodes = Some [trainer_node].
Proof.
  eexists. split; [reflexivity|].
  apply (objects_flow StateBased fresh_world 0%nat _ _ eq_refl eq_refl).
Defined.

(** ** When a test passes *)

Section Passing.

Context {World : Type} (ext : call → World → outcome * World).

(** Libraries in which no call raises and every subscript returns
    something that yields exactly one item. *)
Hypothesis every_call_returns :
  ∀ c w, ∃ x w', ext c w = (Returns x, w').
Hypothesis every_group_has_one_node :
  ∀ obj key w x w',
    ext (GetItem obj key) w = (Returns x, w') → ∃ node, py_items x = Some [node].

Lemma unpack1_one (x node : value) :
  py_items x = Some [node] → unpack1 x = Ret node.
Proof. unfold unpack1. by intros ->. Qed.

Ltac returns :=
  lazymatch goal with
  | |- context [unpack1 ?x] =>
      lazymatch goal with
      | E : ext (GetItem _ _) _ = (Returns x, _) |- _ =>
          let node := fresh "node" in
          let Hnode := fresh "Hnode" in
          destruct (every_group_has_one_node _ _ _ _ _ E) as [node Hnode];
          rewrite (unpack1_one x node Hnode);
          cbn [exec bind for_each call_ method getattr getitem]
      end
  | |- context [ext ?c ?w] =>
      let x := fresh "x" in
      let w' := fresh "w" in
      let E := fresh "E" in
      destruct (every_call_returns c w) as (x & w' & E);
      rewrite E;
      cbn [exec bind for_each call_ method getattr getitem]
  end.

Lemma passes (v : variant) (w : World) : (run ext (test v) w).2 = inr ().
Proof.
  unfold run.
  destruct v;
    unfold test, test_mad4pg_on_debugging_env,
      test_recurrent_mad4pg_on_debugging_env,
      test_centralised_mad4pg_on_debugging_env,
      test_state_based_mad4pg_on_debugging_env, range, functools_partial;
    cbn [seq exec bind for_each call_ method getattr getitem];
    repeat returns; reflexivity.
Qed.

End Passing.

(** Against libraries in which no call raises and every subscript returns
    something that yields exactly one item, each of the four tests ends
    without an exception. *)
Theorem test_passes_when_calls_succeed (v : variant) {World : Type}
  (ext : call → World → outcome * World) (w : World) :
  (∀ c w, ∃ x w', ext c w = (Returns x, w')) →
  (∀ obj key w x w',
     ext (GetItem obj key) w = (Returns x, w') →
     ∃ node, py_items x = Some [node]) →
  (run ext (test v) w).2 = inr ().
Proof. intros Hret Hone. by apply passes. Qed.

Lemma test_passes_when_calls_succeed_witness :
  (run fresh_world (test Centralised) 0%nat).2 = inr ().
Proof.
  apply (test_passes_when_calls_succeed Centralised fresh_world 0%nat).
  - intros c n. destruct c; by eexists _, _.
  - intros obj key n x n' [= <- _]. by eexists.
Defined.
